(** * idiopath/run.py: the counter application

    A shallow embedding of the example program [idiopath/run.py] and the
    properties of its three methods.  The program keeps one Python integer,
    [self.count], on a long-lived instance of [MyApp]; the host framework
    [foo] calls [run] to obtain a description of the user interface and calls
    [handle_click] and [reset] when the buttons are activated.  The only
    operation of the program that can fail is the conversion of the counter
    to its decimal numeral in the label built by [run]. *)

From Stdlib Require Import ZArith String Ascii List Lia.
From Stdlib Require Import Decimal DecimalString DecimalPos DecimalZ.
Import ListNotations.

Local Open Scope string_scope.
Local Open Scope Z_scope.

(** ** The Python runtime the program relies on *)

Module Py.

(** The exceptions a method body can end with. *)
Inductive exn : Type :=
| AttributeError
| TypeError
| ValueError.

(** A call of a method on an instance of state type [S] either returns a
    value or raises; either way it leaves the instance in some state. *)
Inductive outcome (S A : Type) : Type :=
| Returns (v : A) (self : S)
| Raises (e : exn) (self : S).
Arguments Returns {S A} v self.
Arguments Raises {S A} e self.

(** Method bodies: the instance [self] is threaded through. *)
Definition M (S A : Type) : Type := S -> outcome S A.

Definition ret {S A} (v : A) : M S A := fun self => Returns v self.

Definition raise {S A} (e : exn) : M S A := fun self => Raises e self.

Definition bind {S A B} (c : M S A) (k : A -> M S B) : M S B :=
  fun self =>
    match c self with
    | Returns v self' => k v self'
    | Raises e self' => Raises e self'
    end.

(** Reading and replacing the instance state. *)
Definition get {S} : M S S := fun self => Returns self self.
Definition put {S} (s : S) : M S unit := fun _ => Returns tt s.

(** The decimal numeral of an integer: decimal digits, a leading ["-"] for
    a negative number, ["0"] for zero.  Python integers are unbounded, hence
    [Z]. *)
Definition decimal (n : Z) : string := NilZero.string_of_int (Z.to_int n).

(** [sys.get_int_max_str_digits()] of an interpreter started with its
    defaults (CPython 3.11 and later): the largest number of digits an
    [int] may have to be converted to a decimal string. *)
Definition int_max_str_digits : Z := 4300.

(** The least magnitude whose numeral has more than [int_max_str_digits]
    digits. *)
Definition str_limit : Z := 10 ^ int_max_str_digits.

(** [str(n)] for a Python [int], which is also what an f-string replacement
    field [{n}] with no format specification evaluates: the decimal numeral
    of [n], or [ValueError] when [n] has more than [int_max_str_digits]
    digits. *)
Definition str {S} (n : Z) : M S string :=
  if Z.abs n <? str_limit then ret (decimal n) else raise ValueError.

(** Reading a decimal numeral back: an optional ["-"] followed by decimal
    digits.  The program never parses; this is the left inverse of
    [decimal], used to say which number a string shows. *)
Definition read_decimal (s : string) : option Z :=
  option_map Z.of_int (NilZero.int_of_string s).

End Py.

Declare Scope py_scope.
Delimit Scope py_scope with py.
Notation "x <- c ;; k" := (Py.bind c (fun x => k))
  (at level 61, c at next level, right associativity) : py_scope.
Notation "c ;; k" := (Py.bind c (fun _ => k))
  (at level 61, right associativity) : py_scope.
Local Open Scope py_scope.

(** ** The host framework *)

Module foo.

#[local] Set Warnings "-register-all".

(** Modelled from the spec: the module [foo] imported by [run.py] is the
    host framework and is not part of the sources.  Its two constructors used
    by the program are taken as the free constructors of a description
    tree: [button] takes a label string and a handler reference, [column]
    (the vertical container) takes its children in order. *)
Inductive element (H : Type) : Type :=
| button (label : string) (handler : H)
| column (children : list (element H)).
Arguments button {H} label handler.
Arguments column {H} children.

(** The children of a container, in order; a button has none. *)
Definition children {H} (e : element H) : list (element H) :=
  match e with
  | button _ _ => []
  | column cs => cs
  end.

(** The label of a button. *)
Definition label {H} (e : element H) : option string :=
  match e with
  | button l _ => Some l
  | column _ => None
  end.

End foo.

(** ** The application *)

(** An instance of [class MyApp]: its only attribute is [count]. *)
Record MyApp : Type := mkMyApp { count : Z }.

(** The bound methods of the instance that the program hands to the host as
    button handlers: [self.handle_click] and [self.reset]. *)
Inductive bound_method : Type :=
| self_handle_click
| self_reset.

(** Attribute access on [self]. *)
Definition get_count : Py.M MyApp Z :=
  self <- Py.get ;; Py.ret (count self).

Definition set_count (v : Z) : Py.M MyApp unit :=
  Py.put (mkMyApp v).

(** [def __init__(self): self.count = 0] *)
Definition __init__ : MyApp := mkMyApp 0.

(** [my_app = MyApp()] *)
Definition my_app : MyApp := __init__.

Section Methods.

(** The value the host threads into every callback; the program passes the
    string ['this data is threaded down'] to [foo.ui], and never inspects
    it. *)
Context {Data : Type}.

(** [def run(self, data)] *)
Definition run (data : Data) : Py.M MyApp (foo.element bound_method) :=
  c <- get_count ;;
  n <- Py.str c ;;
  Py.ret (foo.column
            [ foo.button ("count: " ++ n) self_handle_click;
              foo.button "reset" self_reset ]).

(** [def handle_click(self, data): self.count += 1] *)
Definition handle_click (data : Data) : Py.M MyApp unit :=
  c <- get_count ;;
  set_count (c + 1).

(** [def reset(self, data): self.count = 0] *)
Definition reset (data : Data) : Py.M MyApp unit :=
  set_count 0.

(** Calling a bound method with the threaded value. *)
Definition call (h : bound_method) (data : Data) : Py.M MyApp unit :=
  match h with
  | self_handle_click => handle_click data
  | self_reset => reset data
  end.

End Methods.

(** ** Calls made by the host *)

Section Host.

Context {Data : Type}.

(** The three entry points the host can call on [my_app], each with the
    value it threads. *)
Inductive request : Type :=
| call_run (data : Data)
| call_handle_click (data : Data)
| call_reset (data : Data).

(** One call; the description returned by [run] is consumed by the host. *)
Definition perform (r : request) : Py.M MyApp unit :=
  match r with
  | call_run data => _ <- run data ;; Py.ret tt
  | call_handle_click data => handle_click data
  | call_reset data => reset data
  end.

(** A finite sequence of calls, in order. *)
Fixpoint perform_all (rs : list request) : Py.M MyApp unit :=
  match rs with
  | [] => Py.ret tt
  | r :: rs' => perform r ;; perform_all rs'
  end.

(** The states of the instance the host can bring about. *)
Inductive reachable : MyApp -> Prop :=
| reachable_start : reachable my_app
| reachable_call (r : request) (s s' : MyApp) :
    reachable s -> perform r s = Py.Returns tt s' -> reachable s'.


(** Modelled from the spec: the event dispatch of [foo] is not part of the
    sources.  Activating the [i]-th child of the rendered container calls the
    handler that button was built with, passing the threaded value; a
    position that holds no button calls nothing. *)
Definition click (i : nat) (data : Data) : Py.M MyApp unit :=
  w <- run data ;;
  match nth_error (foo.children w) i with
  | Some (foo.button _ h) => call h data
  | _ => Py.ret tt
  end.

End Host.

(** ** Reading a description *)

(** The label of the first child of a container. *)
Definition first_label {H} (w : foo.element H) : option string :=
  match foo.children w with
  | b :: _ => foo.label b
  | [] => None
  end.

(** The rest of [s] after the prefix [p], when [s] starts with [p]. *)
Fixpoint strip_prefix (p s : string) : option string :=
  match p, s with
  | EmptyString, _ => Some s
  | String a p', String b s' =>
      if Ascii.eqb a b then strip_prefix p' s' else None
  | String _ _, EmptyString => None
  end.

(** The number a label of the form ["count: <decimal>"] shows. *)
Definition counter_of_label (l : string) : option Z :=
  match strip_prefix "count: " l with
  | Some digits => Py.read_decimal digits
  | None => None
  end.

(** ** Reading a sequence of calls *)

(** The method a call goes to, without the value it threads. *)
Inductive method_name : Type :=
| name_run
| name_handle_click
| name_reset.

Definition method_name_eqb (m m' : method_name) : bool :=
  match m, m' with
  | name_run, name_run => true
  | name_handle_click, name_handle_click => true
  | name_reset, name_reset => true
  | _, _ => false
  end.

Definition called {Data} (r : @request Data) : method_name :=
  match r with
  | call_run _ => name_run
  | call_handle_click _ => name_handle_click
  | call_reset _ => name_reset
  end.

(** Whether the call [r] goes to the method [m]. *)
Definition calls {Data} (m : method_name) (r : @request Data) : bool :=
  method_name_eqb m (called r).

(** How many calls of [rs] go to [handle_click]. *)
Definition handle_click_calls {Data} (rs : list (@request Data)) : nat :=
  List.length (filter (calls name_handle_click) rs).

(** ** Sequencing *)

Lemma bind_returns {S A B} (c : Py.M S A) (k : A -> Py.M S B) self v self' :
  c self = Py.Returns v self' -> (x <- c ;; k x) self = k v self'.
Proof.
  intros E. unfold Py.bind. now rewrite E.
Qed.

Lemma bind_raises {S A B} (c : Py.M S A) (k : A -> Py.M S B) self e self' :
  c self = Py.Raises e self' -> (x <- c ;; k x) self = Py.Raises e self'.
Proof.
  intros E. unfold Py.bind. now rewrite E.
Qed.

Lemma bind_assoc {S A B C} (c : Py.M S A) (k : A -> Py.M S B)
    (k' : B -> Py.M S C) self :
  (y <- (x <- c ;; k x) ;; k' y) self = (x <- c ;; y <- k x ;; k' y) self.
Proof.
  unfold Py.bind. now destruct (c self).
Qed.

(** ** Decimal numerals and the conversion limit *)

Lemma str_limit_gt : 4300 < Py.str_limit.
Proof.
  unfold Py.str_limit, Py.int_max_str_digits.
  apply Z.pow_gt_lin_r; lia.
Qed.

Lemma within_limit_small (n : Z) : Z.abs n <= 4300 -> Z.abs n < Py.str_limit.
Proof.
  pose proof str_limit_gt. lia.
Qed.

Lemma str_within {S} (n : Z) (self : S) :
  Z.abs n < Py.str_limit -> Py.str n self = Py.Returns (Py.decimal n) self.
Proof.
  intros H. unfold Py.str.
  destruct (Z.ltb_spec (Z.abs n) Py.str_limit); [reflexivity|lia].
Qed.

Lemma str_beyond {S} (n : Z) (self : S) :
  Py.str_limit <= Z.abs n -> Py.str n self = Py.Raises Py.ValueError self.
Proof.
  intros H. unfold Py.str.
  destruct (Z.ltb_spec (Z.abs n) Py.str_limit); [lia|reflexivity].
Qed.

Lemma to_int_not_nil (n : Z) :
  Z.to_int n <> Pos Nil /\ Z.to_int n <> Neg Nil.
Proof.
  destruct n as [|p|p]; simpl; split; try discriminate;
    intros [= E]; now apply (Unsigned.to_uint_nonnil p).
Qed.

(** The numeral printed for [n] reads back as [n]. *)
Lemma read_decimal_decimal (n : Z) : Py.read_decimal (Py.decimal n) = Some n.
Proof.
  unfold Py.read_decimal, Py.decimal.
  destruct (to_int_not_nil n) as [Hpos Hneg].
  rewrite NilZero.isi by assumption.
  simpl. now rewrite DecimalZ.of_to.
Qed.

Lemma decimal_inj (n m : Z) : Py.decimal n = Py.decimal m -> n = m.
Proof.
  intros E. apply (f_equal Py.read_decimal) in E.
  rewrite !read_decimal_decimal in E. congruence.
Qed.

Lemma strip_prefix_app (p s : string) : strip_prefix p (p ++ s) = Some s.
Proof.
  induction p as [|a p IH]; simpl.
  - reflexivity.
  - now rewrite Ascii.eqb_refl.
Qed.

Lemma counter_of_label_count (n : Z) :
  counter_of_label ("count: " ++ Py.decimal n) = Some n.
Proof.
  unfold counter_of_label.
  rewrite strip_prefix_app. apply read_decimal_decimal.
Qed.

(** ** The three methods *)

Section Properties.

Context {Data : Type}.
Implicit Types (d data : Data) (s : MyApp) (ds : list Data).
Implicit Types (r : @request Data) (rs : list (@request Data)).

(** What each method returns and the state it leaves. *)

Lemma run_returns d s :
  Z.abs (count s) < Py.str_limit ->
  run d s =
  Py.Returns
    (foo.column
       [ foo.button ("count: " ++ Py.decimal (count s)) self_handle_click;
         foo.button "reset" self_reset ])
    s.
Proof.
  intros H. unfold run, get_count.
  rewrite bind_assoc.
  rewrite (bind_returns Py.get _ s s s eq_refl).
  rewrite (bind_returns (Py.ret (count s)) _ s (count s) s eq_refl).
  now rewrite (bind_returns (Py.str (count s)) _ s _ s (str_within _ _ H)).
Qed.

Lemma run_raises d s :
  Py.str_limit <= Z.abs (count s) ->
  run d s = Py.Raises Py.ValueError s.
Proof.
  intros H. unfold run, get_count.
  rewrite bind_assoc.
  rewrite (bind_returns Py.get _ s s s eq_refl).
  rewrite (bind_returns (Py.ret (count s)) _ s (count s) s eq_refl).
  now rewrite (bind_raises (Py.str (count s)) _ s _ s (str_beyond _ _ H)).
Qed.

(** A call of [run] that returns was made within the limit, returns the
    description of the counter and leaves the state. *)
Lemma run_returns_inv d s w s' :
  run d s = Py.Returns w s' ->
  Z.abs (count s) < Py.str_limit /\ s' = s /\
  w = foo.column
        [ foo.button ("count: " ++ Py.decimal (count s)) self_handle_click;
          foo.button "reset" self_reset ].
Proof.
  destruct (Z.lt_ge_cases (Z.abs (count s)) Py.str_limit) as [H|H].
  - rewrite (run_returns d s H). intros [= <- <-]. auto.
  - rewrite (run_raises d s H). discriminate.
Qed.

Lemma handle_click_returns d s :
  handle_click d s = Py.Returns tt (mkMyApp (count s + 1)).
Proof. reflexivity. Qed.

Lemma reset_returns d s : reset d s = Py.Returns tt (mkMyApp 0).
Proof. reflexivity. Qed.

Lemma perform_run_returns d s :
  Z.abs (count s) < Py.str_limit -> perform (call_run d) s = Py.Returns tt s.
Proof.
  intros H. unfold perform.
  now rewrite (bind_returns (run d) _ s _ s (run_returns d s H)).
Qed.

Lemma perform_run_raises d s :
  Py.str_limit <= Z.abs (count s) ->
  perform (call_run d) s = Py.Raises Py.ValueError s.
Proof.
  intros H. unfold perform.
  now rewrite (bind_raises (run d) _ s _ s (run_raises d s H)).
Qed.

(** The two ways one call can end. *)
Lemma perform_cases r s :
  perform r s =
    Py.Returns tt
      match r with
      | call_run _ => s
      | call_handle_click _ => mkMyApp (count s + 1)
      | call_reset _ => mkMyApp 0
      end \/
  (called r = name_run /\ Py.str_limit <= Z.abs (count s) /\
   perform r s = Py.Raises Py.ValueError s).
Proof.
  destruct r as [d|d|d]; try (left; reflexivity).
  destruct (Z.lt_ge_cases (Z.abs (count s)) Py.str_limit) as [H|H].
  - left. now apply perform_run_returns.
  - right. repeat split; [exact H|now apply perform_run_raises].
Qed.

Lemma perform_returns_inv r s s' :
  perform r s = Py.Returns tt s' ->
  s' = match r with
       | call_run _ => s
       | call_handle_click _ => mkMyApp (count s + 1)
       | call_reset _ => mkMyApp 0
       end.
Proof.
  destruct (perform_cases r s) as [E|[_ [_ E]]]; rewrite E.
  - now intros [= <-].
  - discriminate.
Qed.

(** Sequences of calls. *)

Lemma perform_all_cons r rs s s' :
  perform r s = Py.Returns tt s' ->
  perform_all (r :: rs) s = perform_all rs s'.
Proof.
  intros E. exact (bind_returns (perform r) (fun _ => perform_all rs) s tt s' E).
Qed.

Lemma perform_all_cons_raises r rs s e s' :
  perform r s = Py.Raises e s' ->
  perform_all (r :: rs) s = Py.Raises e s'.
Proof.
  intros E. exact (bind_raises (perform r) (fun _ => perform_all rs) s e s' E).
Qed.

Lemma perform_all_app rs1 rs2 s :
  perform_all (rs1 ++ rs2) s = (perform_all rs1 ;; perform_all rs2) s.
Proof.
  revert s. induction rs1 as [|r rs1 IH]; intros s.
  - reflexivity.
  - cbn [List.app perform_all]. rewrite bind_assoc.
    destruct (perform r s) as [[] s1|e s1] eqn:E.
    + rewrite !(bind_returns _ _ _ _ _ E). apply IH.
    + now rewrite !(bind_raises _ _ _ _ _ E).
Qed.

(** A sequence that returns after a last call returned before that call. *)
Lemma perform_all_snoc_returns rs r s s' :
  perform_all (rs ++ [r]) s = Py.Returns tt s' ->
  exists s0, perform_all rs s = Py.Returns tt s0 /\
             perform r s0 = Py.Returns tt s'.
Proof.
  rewrite perform_all_app.
  destruct (perform_all rs s) as [[] s0|e s0] eqn:E.
  - rewrite (bind_returns _ _ _ _ _ E). intros H. exists s0. split; [reflexivity|].
    destruct (perform r s0) as [[] s1|e s1] eqn:Er.
    + now rewrite (perform_all_cons _ _ _ _ Er) in H.
    + now rewrite (perform_all_cons_raises _ _ _ _ _ Er) in H.
  - now rewrite (bind_raises _ _ _ _ _ E).
Qed.

(** As many calls of [handle_click] as [ds] has values add that many to the
    counter. *)
Lemma handle_clicks_from ds s :
  perform_all (map call_handle_click ds) s =
  Py.Returns tt (mkMyApp (count s + Z.of_nat (List.length ds))).
Proof.
  revert s. induction ds as [|d ds IH]; intros [c].
  - simpl. unfold Py.ret. do 2 f_equal. lia.
  - cbn [map].
    rewrite (perform_all_cons (call_handle_click d) _ _ _
               (handle_click_returns d _)).
    rewrite IH. cbn [count List.length]. do 2 f_equal. lia.
Qed.

(** One call keeps a non-negative counter non-negative. *)
Lemma perform_keeps_nonneg r s s' :
  0 <= count s -> perform r s = Py.Returns tt s' -> 0 <= count s'.
Proof.
  intros Hs E. rewrite (perform_returns_inv r s s' E).
  destruct r; simpl; lia.
Qed.

(** The step relation and the executable sequence agree. *)
Lemma reachable_iff_perform_all s :
  reachable (Data := Data) s <->
  exists rs, perform_all rs my_app = Py.Returns tt s.
Proof.
  split.
  - induction 1 as [|r s s' _ [rs IH] Hr].
    + now exists [].
    + exists (rs ++ [r])%list.
      rewrite perform_all_app, (bind_returns _ _ _ _ _ IH).
      now rewrite (perform_all_cons _ _ _ _ Hr).
  - intros [rs Hrs]. revert s Hrs.
    induction rs as [|r rs IH] using rev_ind; intros s Hrs.
    + simpl in Hrs. injection Hrs as <-. constructor.
    + apply perform_all_snoc_returns in Hrs as [s0 [E0 Er]].
      apply (reachable_call r s0 s); [now apply IH|exact Er].
Qed.

(** ** The specified behaviour *)

(** C1. Starting from the initial instance, whose counter is 0, calling
    [handle_click] [N] times, whatever values are threaded into the calls,
    leaves the counter equal to [N]. *)
Theorem handle_click_N_times (N : nat) ds :
  List.length ds = N ->
  perform_all (map call_handle_click ds) my_app =
  Py.Returns tt (mkMyApp (Z.of_nat N)).
Proof.
  intros <-. rewrite handle_clicks_from. reflexivity.
Qed.

(** C2. After any sequence of [handle_click] calls made on the initial
    instance, a call of [reset], with any threaded value, leaves the counter
    equal to 0. *)
Theorem reset_after_handle_clicks ds d :
  (perform_all (map call_handle_click ds) ;; reset d) my_app =
  Py.Returns tt (mkMyApp 0).
Proof.
  now rewrite (bind_returns _ _ _ _ _ (handle_clicks_from ds my_app)).
Qed.

(** C3. The counter of the initial instance is 0, and [run] called on it
    before any handler returns a description whose first button is labelled
    exactly ["count: 0"]. *)
Theorem initial_count_and_label d :
  count my_app = 0 /\
  exists w,
    run d my_app = Py.Returns w my_app /\ first_label w = Some "count: 0".
Proof.
  split; [reflexivity|].
  eexists. split.
  - apply run_returns, within_limit_small.
    unfold my_app, __init__. cbn [count]. lia.
  - reflexivity.
Qed.

(** C4 (as amended). In every state whose counter has at most 4300 decimal
    digits, [run] returns a column of exactly two buttons, in this order:
    the first is labelled ["count: "] followed by the decimal numeral of the
    counter (so the label shows the counter, and reads ["count: 1"] when the
    counter is 1) and carries the [handle_click] method; the second is
    labelled ["reset"] and carries the [reset] method. *)
Theorem run_describes_two_buttons d s :
  Z.abs (count s) < Py.str_limit ->
  (exists l,
     run d s =
     Py.Returns
       (foo.column
          [ foo.button l self_handle_click; foo.button "reset" self_reset ])
       s /\
     l = "count: " ++ Py.decimal (count s) /\
     counter_of_label l = Some (count s)) /\
  run d (mkMyApp 1) =
  Py.Returns
    (foo.column
       [ foo.button "count: 1" self_handle_click;
         foo.button "reset" self_reset ])
    (mkMyApp 1) /\
  call (Data := Data) self_handle_click = handle_click /\
  call (Data := Data) self_reset = reset.
Proof.
  intros H. split; [|split; [|split; reflexivity]].
  - exists ("count: " ++ Py.decimal (count s)).
    split; [now apply run_returns|].
    split; [reflexivity|apply counter_of_label_count].
  - rewrite run_returns; [reflexivity|].
    apply within_limit_small. cbn [count]. lia.
Qed.


(** C6. For every integer value [c] of the counter, reachable or not, one
    call of [handle_click] makes the counter exactly [c + 1]; the call
    returns nothing else and the instance has no other attribute. *)
Theorem handle_click_adds_one (c : Z) d :
  handle_click d (mkMyApp c) = Py.Returns tt (mkMyApp (c + 1)).
Proof. reflexivity. Qed.

(** C7. The threaded value is ignored: in every state and for every two
    values, [run] returns equal descriptions, and [handle_click] and [reset]
    leave equal states, whichever of the two values is passed. *)
Theorem threaded_value_is_ignored s d1 d2 :
  run d1 s = run d2 s /\
  handle_click d1 s = handle_click d2 s /\
  reset d1 s = reset d2 s.
Proof. repeat split. Qed.

(** C8. In every state the host can reach from the initial instance by a
    finite sequence of [run], [handle_click] and [reset] calls, the counter
    is a non-negative integer. *)
Theorem reachable_count_nonneg s :
  reachable (Data := Data) s -> 0 <= count s.
Proof.
  induction 1 as [|r s s' _ IH Hr].
  - simpl. lia.
  - exact (perform_keeps_nonneg r s s' IH Hr).
Qed.

(** C9 (as amended). For every integer value of the counter and every
    threaded value, [handle_click] and [reset] return and never raise.  [run]
    returns, leaving the counter as it was, exactly when the counter has at
    most 4300 decimal digits; for every other counter it raises [ValueError],
    again leaving the counter as it was. *)
Theorem methods_raise_only_beyond_str_limit (c : Z) d :
  handle_click d (mkMyApp c) = Py.Returns tt (mkMyApp (c + 1)) /\
  reset d (mkMyApp c) = Py.Returns tt (mkMyApp 0) /\
  (forall e s',
     handle_click d (mkMyApp c) <> Py.Raises e s' /\
     reset d (mkMyApp c) <> Py.Raises e s') /\
  ((exists w, run d (mkMyApp c) = Py.Returns w (mkMyApp c)) <->
   Z.abs c < Py.str_limit) /\
  (run d (mkMyApp c) = Py.Raises Py.ValueError (mkMyApp c) <->
   Py.str_limit <= Z.abs c).
Proof.
  split; [reflexivity|]. split; [reflexivity|].
  split; [intros e s'; split; discriminate|].
  split; split.
  - intros [w E]. now apply run_returns_inv in E.
  - intros H. eexists. now apply run_returns.
  - intros E.
    destruct (Z.lt_ge_cases (Z.abs c) Py.str_limit) as [H|H]; [|exact H].
    rewrite (run_returns d (mkMyApp c) H) in E. discriminate E.
  - intros H. now apply run_raises.
Qed.

(** C10. [reset] is absorbing and idempotent: from every integer value of
    the counter it leaves the counter at 0, so two calls in a row leave the
    state one call leaves, and the state after [reset] does not depend on
    the state before. *)
Theorem reset_absorbing_idempotent (c c' : Z) d d' :
  reset d (mkMyApp c) = Py.Returns tt (mkMyApp 0) /\
  (reset d ;; reset d') (mkMyApp c) = reset d (mkMyApp c) /\
  reset d (mkMyApp c) = reset d (mkMyApp c').
Proof. repeat split. Qed.

End Properties.

(** ** Beyond the conversion limit *)

Lemma abs_pow_limit : Z.abs (10 ^ 4300) = Py.str_limit.
Proof.
  rewrite Z.abs_eq by (apply Z.pow_nonneg; lia). reflexivity.
Qed.

Lemma beyond_limit_pos : Py.str_limit <= Z.abs (count (mkMyApp (10 ^ 4300))).
Proof.
  cbn [count]. rewrite abs_pow_limit. lia.
Qed.

Lemma beyond_limit_neg :
  Py.str_limit <= Z.abs (count (mkMyApp (- 10 ^ 4300))).
Proof.
  cbn [count]. rewrite Z.abs_opp, abs_pow_limit. lia.
Qed.

(** C4, as first stated, fails when the counter is 10^4300, a number of 4301
    digits: [run] raises [ValueError] and returns no column. *)
Lemma run_no_column_beyond_limit :
  run "this data is threaded down" (mkMyApp (10 ^ 4300)) =
  Py.Raises Py.ValueError (mkMyApp (10 ^ 4300)) /\
  ~ exists l,
      run "this data is threaded down" (mkMyApp (10 ^ 4300)) =
      Py.Returns
        (foo.column
           [ foo.button l self_handle_click; foo.button "reset" self_reset ])
        (mkMyApp (10 ^ 4300)).
Proof.
  rewrite (run_raises _ _ beyond_limit_pos).
  split; [reflexivity|]. intros [l E]. discriminate E.
Qed.


(** C9, as first stated, fails when the counter is -(10^4300): [run] raises
    [ValueError] there. *)
Lemma run_raises_beyond_limit :
  run "this data is threaded down" (mkMyApp (- 10 ^ 4300)) =
  Py.Raises Py.ValueError (mkMyApp (- 10 ^ 4300)) /\
  ~ exists w,
      run "this data is threaded down" (mkMyApp (- 10 ^ 4300)) =
      Py.Returns w (mkMyApp (- 10 ^ 4300)).
Proof.
  rewrite (run_raises _ _ beyond_limit_neg).
  split; [reflexivity|]. intros [w E]. discriminate E.
Qed.

(** ** Sequences of calls and what the description tells *)

Section Sequences.

Context {Data : Type}.
Implicit Types (d data : Data) (s : MyApp) (ds : list Data).
Implicit Types (r : @request Data) (rs : list (@request Data)).

(** The scenario of the specification, played through the buttons the
    description carries: the first render shows 0; activating the first
    button and rendering shows 1; activating the second button then shows 0
    again. *)
Example scenario d :
  (exists w0, run d my_app = Py.Returns w0 my_app /\
              first_label w0 = Some "count: 0") /\
  (exists w1, (click 0 d ;; run d) my_app = Py.Returns w1 (mkMyApp 1) /\
              first_label w1 = Some "count: 1") /\
  (exists w2, (click 0 d ;; click 1 d ;; run d) my_app
              = Py.Returns w2 (mkMyApp 0) /\
              first_label w2 = Some "count: 0").
Proof.
  assert (H0 : Z.abs (count my_app) < Py.str_limit)
    by (apply within_limit_small; unfold my_app, __init__; cbn [count]; lia).
  assert (H1 : Z.abs (count (mkMyApp 1)) < Py.str_limit)
    by (apply within_limit_small; cbn [count]; lia).
  assert (C0 : click 0 d my_app = Py.Returns tt (mkMyApp 1)).
  { unfold click. now rewrite (bind_returns _ _ _ _ _ (run_returns d _ H0)). }
  assert (C1 : click 1 d (mkMyApp 1) = Py.Returns tt (mkMyApp 0)).
  { unfold click. now rewrite (bind_returns _ _ _ _ _ (run_returns d _ H1)). }
  repeat split.
  - eexists. split; [apply (run_returns d _ H0)|reflexivity].
  - eexists. rewrite (bind_returns _ _ _ _ _ C0).
    split; [apply (run_returns d _ H1)|reflexivity].
  - eexists. rewrite (bind_returns _ _ _ _ _ C0).
    rewrite (bind_returns _ _ _ _ _ C1).
    split; [apply (run_returns d _ H0)|reflexivity].
Qed.

(** X1. Two calls of [run] return the same description exactly when they
    are made in the same state and the counter of that state has at most
    4300 decimal digits: a description that is returned tells the counter. *)
Theorem run_description_tells_counter d1 d2 s1 s2 :
  (exists w, run d1 s1 = Py.Returns w s1 /\ run d2 s2 = Py.Returns w s2) <->
  s1 = s2 /\ Z.abs (count s1) < Py.str_limit.
Proof.
  split.
  - intros [w [E1 E2]].
    apply run_returns_inv in E1 as [H1 [_ W1]].
    apply run_returns_inv in E2 as [_ [_ W2]].
    split; [|exact H1].
    rewrite W1 in W2. injection W2 as E.
    apply decimal_inj in E. destruct s1, s2; simpl in E. now subst.
  - intros [<- H]. eexists. split; now apply run_returns.
Qed.

(** X2. Every non-negative counter value can be reached from the initial
    instance (by that many calls of [handle_click]). *)
Theorem nonneg_count_reachable d s :
  0 <= count s -> reachable (Data := Data) s.
Proof.
  destruct s as [c]. simpl. intros Hc.
  apply reachable_iff_perform_all.
  exists (map call_handle_click (repeat d (Z.to_nat c))).
  rewrite handle_clicks_from, repeat_length. simpl.
  do 2 f_equal. lia.
Qed.

(** X3. A sequence of calls with no [reset] in it, started at a counter and
    ending at a counter that both have at most 4300 decimal digits, returns
    and adds to the counter the number of its [handle_click] calls. *)
Theorem no_reset_counts_handle_clicks rs s :
  existsb (calls name_reset) rs = false ->
  Z.abs (count s) < Py.str_limit ->
  Z.abs (count s + Z.of_nat (handle_click_calls rs)) < Py.str_limit ->
  perform_all rs s =
  Py.Returns tt (mkMyApp (count s + Z.of_nat (handle_click_calls rs))).
Proof.
  revert s. induction rs as [|r rs IH]; intros [c] H Hc Hend.
  - simpl. unfold Py.ret. do 2 f_equal. unfold handle_click_calls. simpl. lia.
  - simpl in H. apply Bool.orb_false_iff in H as [Hr Hrs].
    destruct r as [d|d|d]; try discriminate Hr.
    + rewrite (perform_all_cons _ _ _ _ (perform_run_returns d _ Hc)).
      exact (IH _ Hrs Hc Hend).
    + rewrite (perform_all_cons (call_handle_click d) _ _ _
                 (handle_click_returns d _)).
      unfold handle_click_calls in *. cbn [count] in *.
      cbn [filter calls called method_name_eqb List.length] in *.
      rewrite IH; cbn [count]; [do 2 f_equal; lia|exact Hrs|lia|lia].
Qed.


(** X5. A call of [reset] erases what came before it: when the calls before
    it return, the calls after it end as they would on the freshly made
    instance, whatever the starting state and the earlier calls were. *)
Theorem reset_erases_history rs1 d rs2 s s1 :
  perform_all rs1 s = Py.Returns tt s1 ->
  perform_all (rs1 ++ call_reset d :: rs2) s = perform_all rs2 my_app.
Proof.
  intros E1.
  rewrite perform_all_app, (bind_returns _ _ _ _ _ E1).
  exact (perform_all_cons (call_reset d) rs2 s1 _ (reset_returns d s1)).
Qed.

(** X6. What the user sees follows the handlers: when [run] returns a
    description, the description it returns after a call of [handle_click]
    differs from it, and the description it returns after [reset], which it
    always does, is the same exactly when the counter was already 0. *)
Theorem handlers_change_description d s w :
  run d s = Py.Returns w s ->
  (forall w1 s1,
     (handle_click d ;; run d) s = Py.Returns w1 s1 -> w1 <> w) /\
  (exists w0,
     (reset d ;; run d) s = Py.Returns w0 (mkMyApp 0) /\
     (w0 = w <-> count s = 0)).
Proof.
  intros E. apply run_returns_inv in E as [_ [_ ->]]. split.
  - intros w1 s1.
    rewrite (bind_returns _ _ _ _ _ (handle_click_returns d s)).
    intros E1. apply run_returns_inv in E1 as [_ [_ ->]].
    cbn [count]. intros [= E]. apply decimal_inj in E. lia.
  - eexists.
    rewrite (bind_returns _ _ _ _ _ (reset_returns d s)).
    split.
    + apply run_returns, within_limit_small. cbn [count]. lia.
    + cbn [count]. split.
      * intros [= E]. apply decimal_inj in E. congruence.
      * intros ->. reflexivity.
Qed.

(** X7. Starting from the initial instance, any sequence of calls ends, by
    returning or by raising [ValueError], with a counter that is at most the
    number of [handle_click] calls in the sequence. *)
Theorem count_at_most_handle_click_calls rs :
  exists s',
    (perform_all rs my_app = Py.Returns tt s' \/
     perform_all rs my_app = Py.Raises Py.ValueError s') /\
    count s' <= Z.of_nat (handle_click_calls rs).
Proof.
  assert (G : forall rs s, 0 <= count s -> exists s',
             (perform_all rs s = Py.Returns tt s' \/
              perform_all rs s = Py.Raises Py.ValueError s') /\
             count s' <= count s + Z.of_nat (handle_click_calls rs)).
  { clear rs. induction rs as [|r rs IH]; intros s Hs.
    - exists s. split; [now left|]. unfold handle_click_calls. simpl. lia.
    - destruct (perform_cases r s) as [E|[_ [_ E]]].
      + rewrite (perform_all_cons _ _ _ _ E).
        destruct r as [d|d|d];
          [destruct (IH s Hs) as [s' [O Hle]]
          |destruct (IH (mkMyApp (count s + 1))) as [s' [O Hle]];
             [cbn [count]; lia|]
          |destruct (IH (mkMyApp 0)) as [s' [O Hle]]; [cbn [count]; lia|]];
          exists s'; (split; [exact O|]);
          unfold handle_click_calls in *; cbn [count] in *;
          cbn [filter calls called method_name_eqb List.length] in *; lia.
      + rewrite (perform_all_cons_raises _ _ _ _ _ E).
        exists s. split; [now right|]. lia. }
  destruct (G rs my_app) as [s' [O Hle]];
    [unfold my_app, __init__; cbn [count]; lia|].
  exists s'. split; [exact O|].
  unfold my_app, __init__ in Hle. cbn [count] in Hle. lia.
Qed.

End Sequences.

Lemma perform_by_name {D1 D2} (r1 : @request D1) (r2 : @request D2) s :
  called r1 = called r2 -> perform r1 s = perform r2 s.
Proof.
  destruct r1, r2; simpl; intros E; try discriminate E; reflexivity.
Qed.

(** X8. Two sequences of calls that go to the same methods in the same
    order end in the same state, whatever values, of whatever types, are
    threaded into them. *)
Theorem same_methods_same_state {D1 D2}
    (rs1 : list (@request D1)) (rs2 : list (@request D2)) (s : MyApp) :
  map called rs1 = map called rs2 ->
  perform_all rs1 s = perform_all rs2 s.
Proof.
  revert rs2 s. induction rs1 as [|r1 rs1 IH]; intros [|r2 rs2] s E;
    try discriminate E.
  - reflexivity.
  - injection E as Er Ers.
    cbn [perform_all]. unfold Py.bind.
    rewrite (perform_by_name r1 r2 s Er).
    destruct (perform r2 s) as [[] s'|e s']; [now apply IH|reflexivity].
Qed.

(** ** Instances at the value the program threads *)

(** C1 at three calls with the program's own threaded string. *)
Lemma handle_click_N_times_witness :
  List.length (repeat "this data is threaded down" 3) = 3%nat /\
  perform_all (map call_handle_click (repeat "this data is threaded down" 3))
    my_app = Py.Returns tt (mkMyApp 3).
Proof.
  split; [reflexivity|].
  exact (handle_click_N_times 3 (repeat "this data is threaded down" 3) eq_refl).
Defined.

(** C4 at the counter value 41. *)
Lemma run_describes_two_buttons_witness :
  Z.abs (count (mkMyApp 41)) < Py.str_limit /\
  exists l,
    run "this data is threaded down" (mkMyApp 41) =
    Py.Returns
      (foo.column
         [ foo.button l self_handle_click; foo.button "reset" self_reset ])
      (mkMyApp 41) /\
    l = "count: 41".
Proof.
  assert (H : Z.abs (count (mkMyApp 41)) < Py.str_limit)
    by (apply within_limit_small; cbn [count]; lia).
  split; [exact H|].
  destruct (run_describes_two_buttons "this data is threaded down"
              (mkMyApp 41) H) as [[l [E [El _]]] _].
  exists l. split; [exact E|exact El].
Defined.


(** C8 at the state reached by one activation of the first button. *)
Lemma reachable_count_nonneg_witness :
  reachable (Data := string) (mkMyApp 1) /\ 0 <= count (mkMyApp 1).
Proof.
  assert (H : reachable (Data := string) (mkMyApp 1)).
  { apply (reachable_call (call_handle_click "this data is threaded down")
             my_app (mkMyApp 1)); [constructor|reflexivity]. }
  split; [exact H|exact (reachable_count_nonneg (mkMyApp 1) H)].
Defined.

(** ** Instances of the sequence properties *)

(** X2 at the counter value 2. *)
Lemma nonneg_count_reachable_witness :
  0 <= count (mkMyApp 2) /\ reachable (Data := string) (mkMyApp 2).
Proof.
  assert (H : 0 <= count (mkMyApp 2)) by (simpl; lia).
  split; [exact H|].
  exact (nonneg_count_reachable "this data is threaded down" (mkMyApp 2) H).
Defined.

(** X3 at two [handle_click] calls around a [run] call, from the counter
    value 5. *)
Lemma no_reset_counts_handle_clicks_witness :
  existsb (calls name_reset)
    [call_handle_click "a"; call_run "b"; call_handle_click "c"] = false /\
  Z.abs (count (mkMyApp 5)) < Py.str_limit /\
  Z.abs (count (mkMyApp 7)) < Py.str_limit /\
  perform_all [call_handle_click "a"; call_run "b"; call_handle_click "c"]
    (mkMyApp 5) = Py.Returns tt (mkMyApp 7).
Proof.
  assert (H5 : Z.abs (count (mkMyApp 5)) < Py.str_limit)
    by (apply within_limit_small; cbn [count]; lia).
  assert (H7 : Z.abs (count (mkMyApp 7)) < Py.str_limit)
    by (apply within_limit_small; cbn [count]; lia).
  split; [reflexivity|]. split; [exact H5|]. split; [exact H7|].
  exact (no_reset_counts_handle_clicks
           [call_handle_click "a"; call_run "b"; call_handle_click "c"]
           (mkMyApp 5) eq_refl H5 H7).
Defined.

(** X5 at two [handle_click] calls before the [reset] and one after it, from
    the counter value 9. *)
Lemma reset_erases_history_witness :
  perform_all [call_handle_click "a"; call_handle_click "b"] (mkMyApp 9) =
  Py.Returns tt (mkMyApp 11) /\
  perform_all
    ([call_handle_click "a"; call_handle_click "b"] ++
     call_reset "c" :: [call_handle_click "d"]) (mkMyApp 9) =
  perform_all [call_handle_click "d"] my_app.
Proof.
  assert (H : perform_all [call_handle_click "a"; call_handle_click "b"]
                (mkMyApp 9) = Py.Returns tt (mkMyApp 11)) by reflexivity.
  split; [exact H|].
  exact (reset_erases_history
           [call_handle_click "a"; call_handle_click "b"] "c"
           [call_handle_click "d"] (mkMyApp 9) (mkMyApp 11) H).
Defined.

(** X6 at the counter value 3. *)
Lemma handlers_change_description_witness :
  run "this data is threaded down" (mkMyApp 3) =
  Py.Returns
    (foo.column
       [ foo.button "count: 3" self_handle_click;
         foo.button "reset" self_reset ])
    (mkMyApp 3) /\
  exists w0,
    (reset "this data is threaded down" ;; run "this data is threaded down")
      (mkMyApp 3) = Py.Returns w0 (mkMyApp 0) /\
    (w0 = foo.column
            [ foo.button "count: 3" self_handle_click;
              foo.button "reset" self_reset ] <-> count (mkMyApp 3) = 0).
Proof.
  assert (H : run "this data is threaded down" (mkMyApp 3) =
              Py.Returns
                (foo.column
                   [ foo.button "count: 3" self_handle_click;
                     foo.button "reset" self_reset ])
                (mkMyApp 3)).
  { rewrite run_returns; [reflexivity|].
    apply within_limit_small. cbn [count]. lia. }
  split; [exact H|].
  exact (proj2 (handlers_change_description "this data is threaded down"
                  (mkMyApp 3) _ H)).
Defined.

(** X8 at one sequence threading strings and one threading integers. *)
Lemma same_methods_same_state_witness :
  map called [call_handle_click "a"; call_reset "b"; call_handle_click "c"] =
  map called [call_handle_click 1; call_reset 2; call_handle_click 3] /\
  perform_all [call_handle_click "a"; call_reset "b"; call_handle_click "c"]
    my_app =
  perform_all [call_handle_click 1; call_reset 2; call_handle_click 3] my_app.
Proof.
  split; [reflexivity|].
  exact (same_methods_same_state
           [call_handle_click "a"; call_reset "b"; call_handle_click "c"]
           [call_handle_click 1; call_reset 2; call_handle_click 3]
           my_app eq_refl).
Defined.
